(** * Crypto volatility dashboard (app.py): filter, metrics, charts, render pass

    A shallow embedding of the Streamlit script [app.py].  The script is one
    top-to-bottom render pass: it loads a CSV into a pandas DataFrame, reads
    three sidebar controls, filters the frame by date, and writes metrics,
    charts and a table to the page.

    Modelling choices, all local to this file:
    - a pandas [Timestamp] is the number of nanoseconds since the epoch, a
      [datetime.date] the number of days since the epoch; [NaT] is [None];
    - a float64 cell is an [option R]: [None] is NaN (a missing cell), and
      [Some x] is a number, idealised as a real (no rounding, no overflow);
    - every Streamlit call that shows something appends one [Widget] to the
      page, in call order; layout calls ([st.columns], [update_layout]) add
      none, texts are abridged and written without their emoji, and number
      formatting ([f"{x:.4f}"]) is kept symbolic as [fmt 4 x];
    - [st.cache_data] is left out: one pass calls [load_data] once;
    - an exception either is caught by the script's one handler or ends the
      pass with the widgets written so far. *)

From Stdlib Require Import ZArith List String Bool Lia Reals Lra.
Import ListNotations.
Open Scope string_scope.
Open Scope list_scope.
Open Scope Z_scope.

Set Implicit Arguments.

(** ** Dates and numbers *)

Definition Timestamp := Z.
Definition date := Z.

Definition ns_per_day : Z := 86400000000000.

(** [Timestamp.date()]: the calendar day of a timestamp. *)
Definition to_date (t : Timestamp) : date := t / ns_per_day.

(** [Series.dt.date]: element-wise, [NaT] stays [NaT]. *)
Definition dt_date (t : option Timestamp) : option date := option_map to_date t.

Definition Float := option R.
Definition NaN : Float := None.

(** ** Exceptions and fallible results *)

Inductive exn :=
| FileNotFoundError
| PermissionError
| ValueError
| KeyError
| IndexingError
| WidgetError.

Inductive Res (A : Type) :=
| Ok (a : A)
| Raise (e : exn).
Arguments Raise {A} e.

Definition res_bind {A B} (r : Res A) (k : A -> Res B) : Res B :=
  match r with
  | Ok a => k a
  | Raise e => Raise e
  end.

(** ** Data frames

    A frame is row-major: each row has its [Date] cell and the cells of the
    remaining columns, in the order of [columns].  The type of the Date cell
    is a parameter, because [read_csv] may leave that column as text. *)

Record Row (D : Type) := mkRow { Date : D; cells : list Float }.

Record Frame (D : Type) := mkFrame { columns : list string; rows : list (Row D) }.

Definition DataFrame := Frame (option Timestamp).

Fixpoint index_of (name : string) (cols : list string) : option nat :=
  match cols with
  | [] => None
  | c :: cs => if String.eqb c name then Some O
               else option_map S (index_of name cs)
  end.

(** A line of the file shorter than the header reads as NaN in the missing
    columns. *)
Definition cell_at {D} (j : nat) (r : Row D) : Float := nth j (cells r) NaN.

(** [df[name]] for a column other than Date; [KeyError] when absent. *)
Definition getitem {D} (df : Frame D) (name : string) : Res (list Float) :=
  match index_of name (columns df) with
  | Some j => Ok (map (cell_at j) (rows df))
  | None => Raise KeyError
  end.

(** [df['Date']]. *)
Definition getitem_Date {D} (df : Frame D) : list D := map (@Date D) (rows df).

(** [df.empty]. *)
Definition empty {D} (df : Frame D) : bool :=
  match rows df with
  | [] => true
  | _ :: _ => false
  end.

(** ** Filtering (app.py lines 65-66) *)

(** [series >= start_date] and [series <= end_date] on a column of dates:
    a comparison with [NaT] is [False]. *)
Definition date_ge (d : option date) (bound : date) : bool :=
  match d with
  | Some d => bound <=? d
  | None => false
  end.

Definition date_le (d : option date) (bound : date) : bool :=
  match d with
  | Some d => d <=? bound
  | None => false
  end.

Definition row_in_range (start_date end_date : date) (r : Row (option Timestamp)) : bool :=
  date_ge (dt_date (Date r)) start_date && date_le (dt_date (Date r)) end_date.

(** [mask = (df['Date'].dt.date >= start_date) & (df['Date'].dt.date <= end_date)] *)
Definition mask (df : DataFrame) (start_date end_date : date) : list bool :=
  map (fun p => fst p && snd p)
      (combine (map (fun d => date_ge (dt_date d) start_date) (getitem_Date df))
               (map (fun d => date_le (dt_date d) end_date) (getitem_Date df))).

Fixpoint select {A} (xs : list A) (m : list bool) : list A :=
  match xs, m with
  | x :: xs', b :: m' => if b then x :: select xs' m' else select xs' m'
  | _, _ => []
  end.

(** [df.loc[mask]] with a boolean mask: the rows where the mask is true, in
    frame order; pandas raises when the mask has another length. *)
Definition loc (df : DataFrame) (m : list bool) : Res DataFrame :=
  if Nat.eqb (List.length m) (List.length (rows df))
  then Ok (mkFrame (columns df) (select (rows df) m))
  else Raise IndexingError.

(** Lines 65-66 together. *)
Definition filter_frame (df : DataFrame) (start_date end_date : date) : Res DataFrame :=
  loc df (mask df start_date end_date).

(** [sub l1 l2]: [l1] is obtained from [l2] by deleting rows, keeping order. *)
Inductive sub {A} : list A -> list A -> Prop :=
| sub_nil : sub [] []
| sub_keep x l1 l2 : sub l1 l2 -> sub (x :: l1) (x :: l2)
| sub_drop x l1 l2 : sub l1 l2 -> sub l1 (x :: l2).

(** The date of a record lies in the inclusive range. *)
Definition date_within (start_date end_date : date) (r : Row (option Timestamp)) : Prop :=
  exists d, dt_date (Date r) = Some d /\ start_date <= d <= end_date.

(** ** Series arithmetic and metrics (app.py lines 82-84) *)

Open Scope R_scope.

(** NaN propagates through every arithmetic operation. *)
Definition fsub (a b : Float) : Float :=
  match a, b with
  | Some u, Some v => Some (u - v)
  | _, _ => NaN
  end.

Definition fmul (a b : Float) : Float :=
  match a, b with
  | Some u, Some v => Some (u * v)
  | _, _ => NaN
  end.

(** Division; a zero divisor gives no real number.  The script divides only
    under the guard [rmse_garch != 0]. *)
Definition fdiv (a b : Float) : Float :=
  match a, b with
  | Some u, Some v => if Req_dec_T v 0 then NaN else Some (u / v)
  | _, _ => NaN
  end.

(** [a != 0]: a comparison that NaN also satisfies. *)
Definition fne0 (a : Float) : bool :=
  match a with
  | Some u => if Req_dec_T u 0 then false else true
  | None => true
  end.

(** [series1 - series2] on two columns of one frame, element by element. *)
Definition series_sub (s1 s2 : list Float) : list Float :=
  map (fun p => fsub (fst p) (snd p)) (combine s1 s2).

(** [series ** 2]. *)
Definition series_pow2 (s : list Float) : list Float :=
  map (option_map (fun u => u ^ 2)) s.

(** [dropna]: the numbers of a series, NaN skipped. *)
Fixpoint dropna (s : list Float) : list R :=
  match s with
  | [] => []
  | Some u :: s' => u :: dropna s'
  | None :: s' => dropna s'
  end.

Definition Rsum (l : list R) : R := fold_right Rplus 0 l.

(** [series.mean()], with pandas' default [skipna=True]: the mean of the
    numbers present, NaN when there is none. *)
Definition mean (s : list Float) : Float :=
  match dropna s with
  | [] => NaN
  | u :: l => Some (Rsum (u :: l) / INR (List.length (u :: l)))
  end.

(** [v ** 0.5] on a float: NaN for NaN and for a negative base. *)
Definition pow_half (a : Float) : Float :=
  match a with
  | Some u =>
      if Rlt_dec u 0 then NaN
      else if Req_dec_T u 0 then Some 0
      else Some (Rpower u (/ 2))
  | None => NaN
  end.

(** [((actual - pred) ** 2).mean() ** 0.5] *)
Definition rmse (actual pred : list Float) : Float :=
  pow_half (mean (series_pow2 (series_sub actual pred))).

(** [(rmse_garch - rmse_lstm) / rmse_garch * 100 if rmse_garch != 0 else 0] *)
Definition improvement (rmse_garch rmse_lstm : Float) : Float :=
  if fne0 rmse_garch
  then fmul (fdiv (fsub rmse_garch rmse_lstm) rmse_garch) (Some 100)
  else Some 0.

(** The RMSE in the words of the specification: the square root of the mean
    squared difference over the records where both values are present, and
    undefined (NaN) when there is no such record. *)
Fixpoint present_pairs (actual pred : list Float) : list (R * R) :=
  match actual, pred with
  | Some u :: a', Some v :: p' => (u, v) :: present_pairs a' p'
  | _ :: a', _ :: p' => present_pairs a' p'
  | _, _ => []
  end.

Definition mean_squared_error (ps : list (R * R)) : R :=
  Rsum (map (fun p => (fst p - snd p) ^ 2) ps) / INR (List.length ps).

Definition rmse_spec (actual pred : list Float) : Float :=
  match present_pairs actual pred with
  | [] => NaN
  | p :: ps => Some (sqrt (mean_squared_error (p :: ps)))
  end.

Close Scope R_scope.

(** ** Loading (app.py lines 31-35)

    What pandas finds at the fixed path of [load_data]: nothing, a file that
    cannot be opened, or a CSV.  A CSV has a header and lines; a line is a
    row whose Date field is still text (and is not read when the header has
    no Date), with the fields of the other columns in header order.  The
    text of a Date field is kept abstract: it parses to a timestamp, it is
    blank, or it does not parse.  The other columns are float columns. *)

Inductive DateText :=
| Parsable (t : Timestamp)
| Blank
| Unparsable.

Record CsvFile := mkCsv { header : list string; lines : list (Row DateText) }.

Inductive FileState :=
| NoSuchFile
| Unreadable
| Readable (csv : CsvFile).

(** The Date column after [read_csv]: parsed timestamps, or the text left
    unaltered. *)
Inductive DateCell :=
| Stamp (t : option Timestamp)
| Text (s : DateText).

Definition is_Date (c : string) : bool := String.eqb c "Date".

(** One Date field under [parse_dates]: a blank field is [NaT]. *)
Definition parse_field (s : DateText) : option (option Timestamp) :=
  match s with
  | Parsable t => Some (Some t)
  | Blank => Some None
  | Unparsable => None
  end.

Fixpoint parse_all (l : list DateText) : option (list (option Timestamp)) :=
  match l with
  | [] => Some []
  | s :: l' =>
      match parse_field s, parse_all l' with
      | Some t, Some ts => Some (t :: ts)
      | _, _ => None
      end
  end.

(** [df['Date'] = series]: the column is replaced, row by row. *)
Definition setitem_Date {D E} (df : Frame D) (col : list E) : Frame E :=
  mkFrame (columns df)
          (map (fun p => mkRow (snd p) (cells (fst p))) (combine (rows df) col)).

(** [pd.read_csv(path, parse_dates=['Date'])]: a missing file and an
    unreadable one raise their OS errors; a header without the column named
    in [parse_dates] raises [ValueError]; a Date column that does not parse as
    a whole is returned unaltered, as text. *)
Definition read_csv (fs : FileState) : Res (Frame DateCell) :=
  match fs with
  | NoSuchFile => Raise FileNotFoundError
  | Unreadable => Raise PermissionError
  | Readable csv =>
      if existsb is_Date (header csv) then
        let raw := mkFrame (filter (fun c => negb (is_Date c)) (header csv))
                           (lines csv) in
        match parse_all (getitem_Date raw) with
        | Some ts => Ok (setitem_Date raw (map Stamp ts))
        | None => Ok (setitem_Date raw (map Text (getitem_Date raw)))
        end
      else Raise ValueError
  end.

(** [pd.to_datetime(series)] with its default [errors='raise']. *)
Fixpoint to_datetime (col : list DateCell) : Res (list (option Timestamp)) :=
  match col with
  | [] => Ok []
  | c :: col' =>
      res_bind
        (match c with
         | Stamp t => Ok t
         | Text s => match parse_field s with
                     | Some t => Ok t
                     | None => Raise ValueError
                     end
         end)
        (fun t => res_bind (to_datetime col') (fun ts => Ok (t :: ts)))
  end.

Definition load_data (fs : FileState) : Res DataFrame :=
  res_bind (read_csv fs) (fun df =>
  res_bind (to_datetime (getitem_Date df)) (fun col =>
  Ok (setitem_Date df col))).

(** ** The page *)

Inductive Shown :=
| lit (s : string)
| fmt (decimals : nat) (v : Float) (suffix : string).

Record Trace := mkTrace {
  trace_name : string;
  trace_x : list (option Timestamp);
  trace_y : list Float }.

Definition Figure := list Trace.

Record Histogram := mkHistogram {
  hist_title : string;
  hist_x : list Float;
  nbins : nat }.

Inductive Place := main | sidebar | col1 | col2 | col3.

Inductive Widget :=
| page_config
| title (s : string)
| markdown (s : string)
| caption (s : string)
| error (s : string)
| header_in (p : Place) (s : string)
| subheader (s : string)
| slider_shown (lo hi : date) (value : date * date)
| checkbox_shown (label : string) (value : bool)
| metric (p : Place) (label : string) (value delta : Shown)
| info (p : Place) (s : string)
| plotly_chart (fig : Figure)
| plotly_histogram (p : Place) (h : Histogram)
| dataframe (df : DataFrame) (formats : list (string * nat)).

(** The points of a series of the overlay chart. *)
Definition points (t : Trace) : list (option Timestamp * Float) :=
  combine (trace_x t) (trace_y t).

(** ** The script as a computation

    A step of the script has written some widgets and then either goes on with
    a value, has called [st.stop()], or has raised. *)

Inductive Script (A : Type) :=
| Done (page : list Widget) (a : A)
| Stop (page : list Widget)
| Fail (page : list Widget) (e : exn).
Arguments Stop {A} page.
Arguments Fail {A} page e.

Definition ret {A} (a : A) : Script A := Done [] a.

Definition bind {A B} (m : Script A) (k : A -> Script B) : Script B :=
  match m with
  | Done p a =>
      match k a with
      | Done q b => Done (p ++ q) b
      | Stop q => Stop (p ++ q)
      | Fail q e => Fail (p ++ q) e
      end
  | Stop p => Stop p
  | Fail p e => Fail p e
  end.

Definition emit (w : Widget) : Script unit := Done [w] tt.

Definition stop {A} : Script A := Stop [].

(** An exception that no handler of the script catches. *)
Definition lift {A} (r : Res A) : Script A :=
  match r with
  | Ok a => Done [] a
  | Raise e => Fail [] e
  end.

Notation "x <- m ;; k" := (bind m (fun x => k))
  (at level 61, m at next level, right associativity).
Notation "m ;; k" := (bind m (fun _ => k))
  (at level 61, right associativity).

Definition page_of {A} (m : Script A) : list Widget :=
  match m with
  | Done p _ => p
  | Stop p => p
  | Fail p _ => p
  end.

(** ** The sections of app.py *)

Definition not_found_message : string :=
  "Data file 'crypto_volatility_forecast_results.csv' not found. Please ensure it is in the same directory as the app.".

Definition no_data_message : string := "No data in selected date range.".

Definition no_data_histogram_message : string :=
  "No data in selected date range to display error distribution.".

(** Lines 11-26: page configuration and header. *)
Definition page_header : Script unit :=
  emit page_config ;;
  emit (title "Crypto Volatility Forecasting Dashboard") ;;
  emit (markdown "Hybrid GARCH + LSTM Model to forecast 7-day BTC volatility").

(** Lines 37-41: the only handler of the script catches [FileNotFoundError],
    shows the message and stops the pass; any other exception goes through. *)
Definition load_or_stop (fs : FileState) : Script DataFrame :=
  match load_data fs with
  | Ok df => ret df
  | Raise FileNotFoundError => emit (error not_found_message) ;; stop
  | Raise e => lift (Raise e)
  end.

(** [series.min()] and [series.max()] on timestamps: [NaT] is skipped, and the
    result is [NaT] when nothing is left. *)
Fixpoint series_min (s : list (option Timestamp)) : option Timestamp :=
  match s with
  | [] => None
  | None :: s' => series_min s'
  | Some t :: s' =>
      match series_min s' with
      | Some m => Some (Z.min t m)
      | None => Some t
      end
  end.

Fixpoint series_max (s : list (option Timestamp)) : option Timestamp :=
  match s with
  | [] => None
  | None :: s' => series_max s'
  | Some t :: s' =>
      match series_max s' with
      | Some m => Some (Z.max t m)
      | None => Some t
      end
  end.

(** What the viewer has set: the two ends of the range slider, if it was
    moved, and the two checkboxes. *)
Record Controls := mkControls {
  chosen_range : option (date * date);
  show_garch : bool;
  show_lstm : bool }.

(** [st.sidebar.slider(..., min_value, max_value, value=(min_value, max_value))]:
    the chosen pair, the full range before any choice; a slider without
    bounds (a frame without a date) is refused. *)
Definition slider (lo hi : option date) (chosen : option (date * date)) : Script (date * date) :=
  match lo, hi with
  | Some lo, Some hi =>
      let v := match chosen with
               | Some v => v
               | None => (lo, hi)
               end in
      emit (slider_shown lo hi v) ;; ret v
  | _, _ => lift (Raise WidgetError)
  end.

Definition checkbox (label : string) (value : bool) : Script bool :=
  emit (checkbox_shown label value) ;; ret value.

(** Lines 71-92. *)
Definition key_metrics (df_filtered : DataFrame) : Script unit :=
  emit (subheader "Model Performance at a Glance") ;;
  actual <- lift (getitem df_filtered "Actual_Volatility") ;;
  garch_pred <- lift (getitem df_filtered "GARCH_Volatility") ;;
  lstm_pred <- lift (getitem df_filtered "Predicted_Volatility") ;;
  if negb (empty df_filtered) then
    let rmse_garch := rmse actual garch_pred in
    let rmse_lstm := rmse actual lstm_pred in
    let improvement := improvement rmse_garch rmse_lstm in
    emit (metric col1 "GARCH RMSE" (fmt 4 rmse_garch "") (lit "")) ;;
    emit (metric col2 "LSTM+GARCH RMSE" (fmt 4 rmse_lstm "") (fmt 1 improvement "%")) ;;
    emit (metric col3 "Improvement" (fmt 1 improvement "%") (lit "vs GARCH"))
  else
    emit (info col1 no_data_message) ;;
    emit (info col2 no_data_message) ;;
    emit (info col3 no_data_message).

(** Lines 100-129: the traces of the overlay figure. *)
Definition overlay (df_filtered : DataFrame) (show_garch show_lstm : bool) : Res Figure :=
  res_bind (getitem df_filtered "Actual_Volatility") (fun actual =>
  let fig := [mkTrace "Actual Volatility" (getitem_Date df_filtered) actual] in
  res_bind (if show_garch
            then res_bind (getitem df_filtered "GARCH_Volatility") (fun garch =>
                 Ok (fig ++ [mkTrace "GARCH Forecast" (getitem_Date df_filtered) garch]))
            else Ok fig) (fun fig =>
  if show_lstm
  then res_bind (getitem df_filtered "Predicted_Volatility") (fun lstm =>
       Ok (fig ++ [mkTrace "LSTM+GARCH Forecast" (getitem_Date df_filtered) lstm]))
  else Ok fig)).

(** Lines 98-139. *)
Definition main_chart (df_filtered : DataFrame) (show_garch show_lstm : bool) : Script unit :=
  emit (subheader "Volatility Forecast vs Actual") ;;
  fig <- lift (overlay df_filtered show_garch show_lstm) ;;
  emit (plotly_chart fig).

(** Lines 144-169. *)
Definition error_distribution (df_filtered : DataFrame) : Script unit :=
  emit (subheader "Forecast Error Distribution") ;;
  if negb (empty df_filtered) then
    actual <- lift (getitem df_filtered "Actual_Volatility") ;;
    garch <- lift (getitem df_filtered "GARCH_Volatility") ;;
    emit (plotly_histogram col1
            (mkHistogram "GARCH Forecast Errors" (series_sub actual garch) 30)) ;;
    actual <- lift (getitem df_filtered "Actual_Volatility") ;;
    lstm <- lift (getitem df_filtered "Predicted_Volatility") ;;
    emit (plotly_histogram col2
            (mkHistogram "LSTM+GARCH Forecast Errors" (series_sub actual lstm) 30))
  else
    emit (info main no_data_histogram_message).

(** Lines 175-180. *)
Definition data_table (df_filtered : DataFrame) : Script unit :=
  emit (subheader "Raw Forecast Data (Filtered)") ;;
  emit (dataframe df_filtered
          [("Actual_Volatility", 4%nat); ("Predicted_Volatility", 4%nat);
           ("GARCH_Volatility", 4%nat)]).

(** Lines 185-187. *)
Definition footer : Script unit :=
  emit (markdown "---") ;;
  emit (caption "Built by [Your Name] | Model trained in Google Colab | GitHub: [your-repo-link]") ;;
  emit (caption "Hybrid volatility model helps crypto traders manage risk during bull/bear swings.").

(** Lines 64-187: everything below the sidebar. *)
Definition views (df : DataFrame) (start_date end_date : date)
    (show_garch show_lstm : bool) : Script unit :=
  df_filtered <- lift (filter_frame df start_date end_date) ;;
  key_metrics df_filtered ;;
  main_chart df_filtered show_garch show_lstm ;;
  error_distribution df_filtered ;;
  data_table df_filtered ;;
  footer.

(** The whole script: one render pass. *)
Definition app (fs : FileState) (ui : Controls) : Script unit :=
  page_header ;;
  df <- load_or_stop fs ;;
  emit (header_in sidebar "Dashboard Controls") ;;
  let min_date := option_map to_date (series_min (getitem_Date df)) in
  let max_date := option_map to_date (series_max (getitem_Date df)) in
  range <- slider min_date max_date (chosen_range ui) ;;
  show_garch <- checkbox "Show GARCH Forecast" (show_garch ui) ;;
  show_lstm <- checkbox "Show LSTM+GARCH Forecast" (show_lstm ui) ;;
  views df (fst range) (snd range) show_garch show_lstm.

(** ** The states of a render pass

    The script has no state variable; the states of the specification name
    the branches a pass takes: the handler of lines 39-41 ([LoadError]), the
    [df_filtered.empty] branches ([Empty]) and the others ([Ready]).  A pass
    that an uncaught exception ends is in none of them. *)

Inductive State := Loading | Ready | Empty | LoadError.

Definition state_of_views (df : DataFrame) (range : date * date) : option State :=
  match filter_frame df (fst range) (snd range) with
  | Ok df_filtered => Some (if empty df_filtered then Empty else Ready)
  | Raise _ => None
  end.

Definition state_of_pass (fs : FileState) (ui : Controls) : option State :=
  match load_data fs with
  | Raise FileNotFoundError => Some LoadError
  | Raise _ => None
  | Ok df =>
      match option_map to_date (series_min (getitem_Date df)),
            option_map to_date (series_max (getitem_Date df)) with
      | Some lo, Some hi =>
          state_of_views df (match chosen_range ui with
                             | Some v => v
                             | None => (lo, hi)
                             end)
      | _, _ => None
      end
  end.

(** A widget that shows data: a metric, a chart, a histogram or the table. *)
Definition is_view (w : Widget) : bool :=
  match w with
  | metric _ _ _ _ | plotly_chart _ | plotly_histogram _ _ | dataframe _ _ => true
  | _ => false
  end.

(** A widget that stands for missing data. *)
Definition is_placeholder (w : Widget) : bool :=
  match w with
  | info _ _ => true
  | _ => false
  end.

(** The frame has the three volatility columns the script reads. *)
Definition has_volatility_columns {D} (df : Frame D) : Prop :=
  index_of "Actual_Volatility" (columns df) <> None /\
  index_of "GARCH_Volatility" (columns df) <> None /\
  index_of "Predicted_Volatility" (columns df) <> None.

(** The (date, value) pairs of the column at index [j], in frame order. *)
Definition series_points (j : nat) (df : DataFrame) : list (option Timestamp * Float) :=
  map (fun r => (Date r, cell_at j r)) (rows df).

(** ** Sample inputs *)

Definition day (n : Z) : Timestamp := n * ns_per_day.

Definition forecast_header : list string :=
  ["Date"; "Actual_Volatility"; "GARCH_Volatility"; "Predicted_Volatility"].

Definition volatility_columns : list string :=
  ["Actual_Volatility"; "GARCH_Volatility"; "Predicted_Volatility"].

Definition record (n : Z) (a g p : R) : Row (option Timestamp) :=
  mkRow (Some (day n)) [Some a; Some g; Some p].

(** Ten records on ten consecutive days. *)
Definition ten_days : DataFrame :=
  mkFrame volatility_columns
    (map (fun n => record n 1 1 2) [1; 2; 3; 4; 5; 6; 7; 8; 9; 10]).

(** actual = 1, 2, 3; GARCH = 1, 2, 3; hybrid = 2, 3, 4. *)
Definition exact_garch : DataFrame :=
  mkFrame volatility_columns [record 1 1 1 2; record 2 2 2 3; record 3 3 3 4].

(** A file with records on day 1 and day 10 only. *)
Definition gap_file : CsvFile :=
  mkCsv forecast_header
    [mkRow (Parsable (day 1)) [Some 1%R; Some 1%R; Some 2%R];
     mkRow (Parsable (day 10)) [Some 2%R; Some 2%R; Some 3%R]].

Definition gap_controls : Controls := mkControls (Some (3, 5)) true true.

(** A file without the column Actual_Volatility. *)
Definition no_actual_file : CsvFile :=
  mkCsv ["Date"; "GARCH_Volatility"; "Predicted_Volatility"]
    [mkRow (Parsable (day 1)) [Some 1%R; Some 2%R]].

(** A file whose second line has a date that does not parse. *)
Definition bad_date_file : CsvFile :=
  mkCsv forecast_header
    [mkRow (Parsable (day 1)) [Some 1%R; Some 1%R; Some 2%R];
     mkRow Unparsable [Some 2%R; Some 2%R; Some 3%R];
     mkRow (Parsable (day 3)) [Some 3%R; Some 3%R; Some 4%R]].

(** ** Further notions for the properties of the sections *)

(** The row has a date ([pd.notna]). *)
Definition has_date (r : Row (option Timestamp)) : bool :=
  match Date r with
  | Some _ => true
  | None => false
  end.

(** The residual series [df[a] - df[b]] of two columns, read row by row. *)
Definition residuals (ja jb : nat) (df : DataFrame) : list Float :=
  map (fun r => fsub (cell_at ja r) (cell_at jb r)) (rows df).

(** The overlay chart among the widgets. *)
Definition is_chart (w : Widget) : bool :=
  match w with
  | plotly_chart _ => true
  | _ => false
  end.

(** A frame with dates at several times of day 5 and around it. *)
Definition intraday : DataFrame :=
  mkFrame volatility_columns
    [mkRow (Some (day 5 - 1)) [Some 1%R; Some 1%R; Some 2%R];
     mkRow (Some (day 5)) [Some 2%R; Some 2%R; Some 3%R];
     mkRow (Some (day 6 - 1)) [Some 3%R; Some 3%R; Some 4%R];
     mkRow (Some (day 6)) [Some 4%R; Some 4%R; Some 5%R];
     mkRow None [Some 5%R; Some 5%R; Some 6%R]].

(** ** Proof steps *)

(** An equation between two traces of different names is absurd. *)
Ltac trace_cases H :=
  repeat (destruct H as [H'|H]; [discriminate H'|]); now destruct H.

(** ** Filtering: lemmas *)

Lemma row_in_range_spec start_date end_date r :
  row_in_range start_date end_date r = true <-> date_within start_date end_date r.
Proof.
  unfold row_in_range, date_within, date_ge, date_le.
  destruct (dt_date (Date r)) as [d|].
  - rewrite andb_true_iff, !Z.leb_le. split.
    + intros [H1 H2]. exists d. auto.
    + intros [d' [E H]]. inversion E; subst. lia.
  - split; [discriminate|]. intros [d [E _]]. discriminate.
Qed.

Lemma mask_rows df start_date end_date :
  mask df start_date end_date = map (row_in_range start_date end_date) (rows df).
Proof.
  unfold mask, getitem_Date, row_in_range.
  induction (rows df) as [|r rs IH]; simpl; [reflexivity|].
  now rewrite IH.
Qed.

Lemma select_map_filter {A} (f : A -> bool) (xs : list A) :
  select xs (map f xs) = filter f xs.
Proof.
  induction xs as [|x xs IH]; simpl; [reflexivity|].
  now rewrite IH.
Qed.

Lemma filter_frame_eq df start_date end_date :
  filter_frame df start_date end_date =
  Ok (mkFrame (columns df) (filter (row_in_range start_date end_date) (rows df))).
Proof.
  unfold filter_frame, loc.
  rewrite mask_rows, List.length_map, Nat.eqb_refl, select_map_filter.
  reflexivity.
Qed.

Lemma filter_sub {A} (f : A -> bool) (xs : list A) : sub (filter f xs) xs.
Proof.
  induction xs as [|x xs IH]; simpl.
  - constructor.
  - destruct (f x); constructor; assumption.
Qed.

Lemma filter_filter_same {A} (f : A -> bool) (xs : list A) :
  filter f (filter f xs) = filter f xs.
Proof.
  induction xs as [|x xs IH]; simpl; [reflexivity|].
  destruct (f x) eqn:E; simpl; [rewrite E|]; now rewrite ?IH.
Qed.

Lemma sub_filter_greatest {A} (f : A -> bool) (l xs : list A) :
  sub l xs -> Forall (fun a => f a = true) l -> sub l (filter f xs).
Proof.
  induction 1 as [|a l1 l2 H IH|a l1 l2 H IH]; intros HF; simpl.
  - constructor.
  - inversion HF as [|? ? Ha HF']; subst. rewrite Ha. constructor. auto.
  - destruct (f a); [constructor|]; auto.
Qed.

Lemma filter_nil_iff {A} (f : A -> bool) (xs : list A) :
  filter f xs = [] <-> (forall a, In a xs -> f a = false).
Proof.
  induction xs as [|a xs IH]; simpl.
  - split; [intros _ ? []|reflexivity].
  - destruct (f a) eqn:E.
    + split; [discriminate|]. intros H. specialize (H a (or_introl eq_refl)). congruence.
    + rewrite IH. split.
      * intros H b [<-|Hb]; auto.
      * intros H b Hb. apply H. now right.
Qed.

(** C1. For every frame and every pair of bounds the filter of lines 65-66
    does not fail; it returns the frame's columns and exactly the rows whose
    date d satisfies start_date <= d <= end_date, both ends included: the
    rows are kept in the frame's order (the result is the frame with rows
    deleted, and it is the longest such selection of in-range rows), and the
    result is the empty frame exactly when no row is in range. *)
Theorem filter_returns_rows_in_range (df : DataFrame) (start_date end_date : date) :
  exists out,
    filter_frame df start_date end_date = Ok out /\
    columns out = columns df /\
    (forall r, In r (rows out) <-> In r (rows df) /\ date_within start_date end_date r) /\
    sub (rows out) (rows df) /\
    (forall l, sub l (rows df) -> Forall (date_within start_date end_date) l ->
               sub l (rows out)) /\
    (rows out = [] <->
     forall r, In r (rows df) -> ~ date_within start_date end_date r).
Proof.
  eexists. split; [apply filter_frame_eq|]. simpl.
  split; [reflexivity|]. split; [|split; [|split]].
  - intros r. rewrite filter_In, row_in_range_spec. reflexivity.
  - apply filter_sub.
  - intros l Hs HF. apply sub_filter_greatest; [assumption|].
    eapply Forall_impl; [|exact HF]. intros a. apply row_in_range_spec.
  - rewrite filter_nil_iff. split; intros H r Hr.
    + rewrite <- row_in_range_spec, (H r Hr). discriminate.
    + specialize (H r Hr). rewrite <- row_in_range_spec in H.
      now destruct (row_in_range start_date end_date r).
Qed.

(** The scenario of the specification: ten rows on days 1 to 10 and the range
    day 3 to day 5 give the three rows of days 3, 4 and 5, in that order. *)
Example filter_ten_days :
  filter_frame ten_days 3 5 =
  Ok (mkFrame volatility_columns [record 3 1 1 2; record 4 1 1 2; record 5 1 1 2]).
Proof. reflexivity. Qed.

(** C10. Filtering is idempotent: filtering the result of a filter by the
    same bounds returns that result again, the same rows in the same order. *)
Theorem filter_idempotent (df : DataFrame) (start_date end_date : date) :
  res_bind (filter_frame df start_date end_date)
           (fun out => filter_frame out start_date end_date)
  = filter_frame df start_date end_date.
Proof.
  rewrite (filter_frame_eq df). simpl.
  rewrite filter_frame_eq. simpl.
  now rewrite filter_filter_same.
Qed.

(** ** Loading: lemmas *)

Lemma to_datetime_Stamp (ts : list (option Timestamp)) :
  to_datetime (map Stamp ts) = Ok ts.
Proof.
  induction ts as [|t ts IH]; simpl; [reflexivity|].
  now rewrite IH.
Qed.

Lemma to_datetime_Text (l : list DateText) :
  to_datetime (map Text l) =
  match parse_all l with
  | Some ts => Ok ts
  | None => Raise ValueError
  end.
Proof.
  induction l as [|s l IH]; simpl; [reflexivity|].
  destruct (parse_field s); simpl; [|reflexivity].
  rewrite IH. now destruct (parse_all l).
Qed.

Lemma parse_all_length (l : list DateText) ts :
  parse_all l = Some ts -> List.length ts = List.length l.
Proof.
  revert ts. induction l as [|s l IH]; simpl; intros ts H.
  - now inversion H.
  - destruct (parse_field s); [|discriminate].
    destruct (parse_all l) as [ts'|]; [|discriminate].
    inversion H; subst. simpl. now rewrite (IH ts').
Qed.

Lemma getitem_Date_setitem {D E} (df : Frame D) (col : list E) :
  List.length col = List.length (rows df) ->
  getitem_Date (setitem_Date df col) = col.
Proof.
  unfold getitem_Date, setitem_Date. simpl.
  generalize (rows df). induction col as [|c col IH]; intros [|r rs] H;
    simpl in *; try discriminate; [reflexivity|].
  now rewrite IH by lia.
Qed.

Lemma setitem_setitem {D E F} (df : Frame D) (col : list E) (col' : list F) :
  List.length col = List.length (rows df) ->
  setitem_Date (setitem_Date df col) col' = setitem_Date df col'.
Proof.
  unfold setitem_Date. simpl. intros H. f_equal.
  revert col col' H. induction (rows df) as [|r rs IH];
    intros [|c col] [|c' col'] H; simpl in *; try discriminate; try reflexivity.
  now rewrite IH by lia.
Qed.

(** The rows of a frame whose Date column was set to parsed timestamps. *)
Lemma load_data_readable (csv : CsvFile) :
  load_data (Readable csv) =
  if existsb is_Date (header csv) then
    match parse_all (map (@Date DateText) (lines csv)) with
    | Some ts =>
        Ok (setitem_Date (mkFrame (filter (fun c => negb (is_Date c)) (header csv))
                                  (lines csv)) ts)
    | None => Raise ValueError
    end
  else Raise ValueError.
Proof.
  unfold load_data, read_csv.
  destruct (existsb is_Date (header csv)); [|reflexivity].
  cbv zeta.
  set (raw := mkFrame (filter (fun c => negb (is_Date c)) (header csv)) (lines csv)).
  change (map (@Date DateText) (lines csv)) with (getitem_Date raw).
  assert (Lr : List.length (getitem_Date raw) = List.length (rows raw))
    by (unfold getitem_Date; now rewrite length_map).
  destruct (parse_all (getitem_Date raw)) as [ts|] eqn:E.
  - pose proof (parse_all_length _ E) as L. rewrite Lr in L.
    cbn [res_bind].
    rewrite getitem_Date_setitem by (now rewrite length_map).
    rewrite to_datetime_Stamp. cbn [res_bind].
    now rewrite setitem_setitem by (now rewrite length_map).
  - cbn [res_bind].
    rewrite getitem_Date_setitem by (now rewrite length_map).
    rewrite to_datetime_Text. now rewrite E.
Qed.

Lemma parse_all_unparsable (l : list DateText) :
  In Unparsable l -> parse_all l = None.
Proof.
  induction l as [|s l IH]; simpl; [intros []|].
  intros [->|H]; [reflexivity|].
  rewrite (IH H). now destruct (parse_field s).
Qed.

Lemma parse_all_Forall2 (l : list DateText) ts :
  parse_all l = Some ts -> Forall2 (fun s t => parse_field s = Some t) l ts.
Proof.
  revert ts. induction l as [|s l IH]; simpl; intros ts H.
  - inversion H. constructor.
  - destruct (parse_field s) eqn:E; [|discriminate].
    destruct (parse_all l) as [ts'|]; [|discriminate].
    inversion H; subst. constructor; auto.
Qed.

Lemma setitem_rows_Forall2 (ls : list (Row DateText)) ts :
  Forall2 (fun s t => parse_field s = Some t) (map (@Date DateText) ls) ts ->
  Forall2 (fun l r => parse_field (Date l) = Some (Date r) /\ cells r = cells l)
          ls (map (fun p => mkRow (snd p) (cells (fst p))) (combine ls ts)).
Proof.
  revert ts. induction ls as [|l ls IH]; intros ts H; inversion H; subst; simpl.
  - constructor.
  - constructor; [split; [assumption|reflexivity]|]. now apply IH.
Qed.

(** C7, as the code has it.  [load_data] fails with [FileNotFoundError] when
    the file is missing, and this is the one failure the script handles, by
    the error message and [st.stop()]; an unreadable file fails with
    [PermissionError] and a header without Date (or a date that does not
    parse) with [ValueError], and these end the pass unhandled.  In every
    other case the load succeeds with the columns of the header, whichever
    they are: the three volatility columns are not looked at. *)
Theorem load_outcomes (fs : FileState) :
  load_data fs =
    match fs with
    | NoSuchFile => Raise FileNotFoundError
    | Unreadable => Raise PermissionError
    | Readable csv =>
        if existsb is_Date (header csv) then
          match parse_all (map (@Date DateText) (lines csv)) with
          | Some ts =>
              Ok (setitem_Date
                    (mkFrame (filter (fun c => negb (is_Date c)) (header csv))
                             (lines csv)) ts)
          | None => Raise ValueError
          end
        else Raise ValueError
    end /\
  load_or_stop fs =
    match load_data fs with
    | Ok df => Done [] df
    | Raise FileNotFoundError => Stop [error not_found_message]
    | Raise e => Fail [] e
    end.
Proof.
  split.
  - destruct fs as [| |csv]; [reflexivity|reflexivity|apply load_data_readable].
  - unfold load_or_stop. destruct (load_data fs) as [df|[]]; reflexivity.
Qed.

(** C7 fails as stated: a file without the column Actual_Volatility loads, and
    an unreadable file does not take the path of the missing file. *)
Lemma load_accepts_missing_column :
  ~ In "Actual_Volatility" (header no_actual_file) /\
  load_data (Readable no_actual_file) =
    Ok (mkFrame ["GARCH_Volatility"; "Predicted_Volatility"]
                [mkRow (Some (day 1)) [Some 1%R; Some 2%R]]) /\
  load_or_stop Unreadable = Fail [] PermissionError.
Proof.
  split; [|split; reflexivity].
  simpl. intros [H|[H|[H|[]]]]; discriminate.
Qed.

(** C8, as the code has it.  No row is dropped at load: a Date field that
    does not parse makes [load_data] fail with [ValueError], and when
    [load_data] succeeds the frame has one row for each line of the file, in
    the order of the file, with the cells of that line and its date parsed
    (a blank date is NaT). *)
Theorem load_keeps_every_row (csv : CsvFile) :
  (In Unparsable (map (@Date DateText) (lines csv)) ->
   load_data (Readable csv) = Raise ValueError) /\
  (forall df, load_data (Readable csv) = Ok df ->
     Forall2 (fun l r => parse_field (Date l) = Some (Date r) /\ cells r = cells l)
             (lines csv) (rows df)).
Proof.
  rewrite load_data_readable. split.
  - intros H. rewrite (parse_all_unparsable _ H).
    now destruct (existsb is_Date (header csv)).
  - intros df. destruct (existsb is_Date (header csv)); [|discriminate].
    destruct (parse_all _) as [ts|] eqn:E; [|discriminate].
    intros H. inversion H; subst. simpl.
    apply setitem_rows_Forall2. now apply parse_all_Forall2.
Qed.

Lemma load_keeps_every_row_witness :
  load_data (Readable bad_date_file) = Raise ValueError /\
  Forall2 (fun l r => parse_field (Date l) = Some (Date r) /\ cells r = cells l)
          (lines gap_file)
          [mkRow (Some (day 1)) [Some 1%R; Some 1%R; Some 2%R];
           mkRow (Some (day 10)) [Some 2%R; Some 2%R; Some 3%R]].
Proof.
  split.
  - apply (proj1 (load_keeps_every_row bad_date_file)). simpl. auto.
  - apply (proj2 (load_keeps_every_row gap_file)
             (mkFrame volatility_columns
                [mkRow (Some (day 1)) [Some 1%R; Some 1%R; Some 2%R];
                 mkRow (Some (day 10)) [Some 2%R; Some 2%R; Some 3%R]])).
    reflexivity.
Defined.

(** C8 fails as stated: with one unparsable date among three lines the load
    fails, and the pass ends after the page header with the exception; no
    line is dropped and nothing is reported. *)
Lemma unparsable_date_fails_load :
  load_data (Readable bad_date_file) = Raise ValueError /\
  app (Readable bad_date_file) gap_controls =
    Fail [page_config;
          title "Crypto Volatility Forecasting Dashboard";
          markdown "Hybrid GARCH + LSTM Model to forecast 7-day BTC volatility"]
         ValueError.
Proof. split; reflexivity. Qed.

(** C9. When the file does not exist, [load_data] fails with
    [FileNotFoundError], the pass is in the state LoadError, and the script
    stops right after the error message: the page holds the page header and
    the message, and no metric, chart, histogram or table. *)
Theorem missing_file_stops_pass (ui : Controls) :
  load_data NoSuchFile = Raise FileNotFoundError /\
  state_of_pass NoSuchFile ui = Some LoadError /\
  app NoSuchFile ui =
    Stop (page_of page_header ++ [error not_found_message]) /\
  (forall w, In w (page_of (app NoSuchFile ui)) -> is_view w = false).
Proof.
  repeat split; try reflexivity.
  simpl. intros w H.
  repeat (destruct H as [<-|H]; [reflexivity|]). destruct H.
Qed.

(** ** Metrics: lemmas *)

Lemma getitem_index {D} (df : Frame D) (name : string) (j : nat) :
  index_of name (columns df) = Some j ->
  getitem df name = Ok (map (cell_at j) (rows df)).
Proof. unfold getitem. now intros ->. Qed.

Lemma dropna_squares (actual pred : list Float) :
  dropna (series_pow2 (series_sub actual pred)) =
  map (fun p => (fst p - snd p) ^ 2)%R (present_pairs actual pred).
Proof.
  unfold series_pow2, series_sub.
  revert pred. induction actual as [|a actual IH]; intros [|p pred];
    try reflexivity.
  - now destruct a.
  - destruct a as [u|], p as [v|]; simpl; now rewrite IH.
Qed.

Lemma Rsum_squares_nonneg (ps : list (R * R)) :
  (0 <= Rsum (map (fun p => (fst p - snd p) ^ 2) ps))%R.
Proof.
  induction ps as [|p ps IH]; cbn [map Rsum fold_right]; [lra|].
  apply Rplus_le_le_0_compat; [apply pow2_ge_0|exact IH].
Qed.

Lemma mean_squared_error_nonneg (p : R * R) (ps : list (R * R)) :
  (0 <= mean_squared_error (p :: ps))%R.
Proof.
  unfold mean_squared_error, Rdiv.
  apply Rmult_le_pos; [apply Rsum_squares_nonneg|].
  left. apply Rinv_0_lt_compat. apply lt_0_INR. simpl. lia.
Qed.

Lemma pow_half_sqrt (u : R) : (0 <= u)%R -> pow_half (Some u) = Some (sqrt u).
Proof.
  intros H. unfold pow_half.
  destruct (Rlt_dec u 0) as [Hlt|_]; [lra|].
  destruct (Req_dec_T u 0) as [->|Hne].
  - now rewrite sqrt_0.
  - rewrite Rpower_sqrt by lra. reflexivity.
Qed.

(** The RMSE of the script is the RMSE of the specification. *)
Lemma rmse_eq_spec (actual pred : list Float) :
  rmse actual pred = rmse_spec actual pred.
Proof.
  unfold rmse, rmse_spec, mean. rewrite dropna_squares.
  destruct (present_pairs actual pred) as [|p ps]; [reflexivity|].
  cbn [map].
  rewrite <- (pow_half_sqrt (mean_squared_error_nonneg p ps)).
  unfold mean_squared_error. cbn [map List.length]. now rewrite length_map.
Qed.

Lemma improvement_zero (rmse_lstm : Float) :
  improvement (Some 0%R) rmse_lstm = Some 0%R.
Proof.
  unfold improvement, fne0. destruct (Req_dec_T 0 0) as [_|H]; [reflexivity|].
  now contradiction H.
Qed.

Lemma improvement_nonzero (g l : R) :
  g <> 0%R -> improvement (Some g) (Some l) = Some ((g - l) / g * 100)%R.
Proof.
  intros H. unfold improvement, fne0, fdiv, fsub, fmul.
  destruct (Req_dec_T g 0) as [E|_]; [contradiction|reflexivity].
Qed.

Lemma improvement_nan (rmse_lstm : Float) : improvement NaN rmse_lstm = NaN.
Proof. reflexivity. Qed.


(** C2. On a frame with the three volatility columns, the RMSE the script
    computes for each model is the square root of the mean of
    (actual - predicted)^2 over the rows where both the actual value and that
    model's prediction are present; the metrics section shows these two
    values when the frame has rows, and the "no data" message in each of the
    three metric columns when it has none. *)
Theorem rmse_shown_is_root_mean_square (df : DataFrame) (actual garch lstm : list Float)
  (Ha : getitem df "Actual_Volatility" = Ok actual)
  (Hg : getitem df "GARCH_Volatility" = Ok garch)
  (Hl : getitem df "Predicted_Volatility" = Ok lstm) :
  rmse actual garch = rmse_spec actual garch /\
  rmse actual lstm = rmse_spec actual lstm /\
  key_metrics df =
    if empty df then
      Done [subheader "Model Performance at a Glance";
            info col1 no_data_message;
            info col2 no_data_message;
            info col3 no_data_message] tt
    else
      Done [subheader "Model Performance at a Glance";
            metric col1 "GARCH RMSE" (fmt 4 (rmse_spec actual garch) "") (lit "");
            metric col2 "LSTM+GARCH RMSE" (fmt 4 (rmse_spec actual lstm) "")
              (fmt 1 (improvement (rmse_spec actual garch) (rmse_spec actual lstm)) "%");
            metric col3 "Improvement"
              (fmt 1 (improvement (rmse_spec actual garch) (rmse_spec actual lstm)) "%")
              (lit "vs GARCH")] tt.
Proof.
  split; [apply rmse_eq_spec|]. split; [apply rmse_eq_spec|].
  rewrite <- !rmse_eq_spec. unfold key_metrics. rewrite Ha, Hg, Hl.
  destruct (empty df); reflexivity.
Qed.

Lemma rmse_shown_is_root_mean_square_witness :
  rmse [Some 1; Some 2; Some 3]%R [Some 1; Some 2; Some 3]%R
    = rmse_spec [Some 1; Some 2; Some 3]%R [Some 1; Some 2; Some 3]%R /\
  rmse [Some 1; Some 2; Some 3]%R [Some 2; Some 3; Some 4]%R
    = rmse_spec [Some 1; Some 2; Some 3]%R [Some 2; Some 3; Some 4]%R /\
  key_metrics exact_garch =
    Done [subheader "Model Performance at a Glance";
          metric col1 "GARCH RMSE"
            (fmt 4 (rmse_spec [Some 1; Some 2; Some 3]%R [Some 1; Some 2; Some 3]%R) "")
            (lit "");
          metric col2 "LSTM+GARCH RMSE"
            (fmt 4 (rmse_spec [Some 1; Some 2; Some 3]%R [Some 2; Some 3; Some 4]%R) "")
            (fmt 1 (improvement
                      (rmse_spec [Some 1; Some 2; Some 3]%R [Some 1; Some 2; Some 3]%R)
                      (rmse_spec [Some 1; Some 2; Some 3]%R [Some 2; Some 3; Some 4]%R))
                 "%");
          metric col3 "Improvement"
            (fmt 1 (improvement
                      (rmse_spec [Some 1; Some 2; Some 3]%R [Some 1; Some 2; Some 3]%R)
                      (rmse_spec [Some 1; Some 2; Some 3]%R [Some 2; Some 3; Some 4]%R))
                 "%")
            (lit "vs GARCH")] tt.
Proof.
  exact (@rmse_shown_is_root_mean_square exact_garch
           [Some 1; Some 2; Some 3]%R [Some 1; Some 2; Some 3]%R
           [Some 2; Some 3; Some 4]%R eq_refl eq_refl eq_refl).
Defined.

(** C3. On a frame with rows and the three volatility columns, the metrics
    section does not fail and the improvement it shows is
    (rmse_garch - rmse_lstm) / rmse_garch * 100 when rmse_garch is not 0, and
    0 when rmse_garch is 0. *)
Theorem improvement_policy (df : DataFrame) (actual garch lstm : list Float)
  (Ha : getitem df "Actual_Volatility" = Ok actual)
  (Hg : getitem df "GARCH_Volatility" = Ok garch)
  (Hl : getitem df "Predicted_Volatility" = Ok lstm)
  (Hrows : empty df = false) :
  exists shown : Float,
    key_metrics df =
      Done [subheader "Model Performance at a Glance";
            metric col1 "GARCH RMSE" (fmt 4 (rmse actual garch) "") (lit "");
            metric col2 "LSTM+GARCH RMSE" (fmt 4 (rmse actual lstm) "") (fmt 1 shown "%");
            metric col3 "Improvement" (fmt 1 shown "%") (lit "vs GARCH")] tt /\
    (rmse actual garch = Some 0%R -> shown = Some 0%R) /\
    (forall g l, rmse actual garch = Some g -> g <> 0%R -> rmse actual lstm = Some l ->
                 shown = Some ((g - l) / g * 100)%R).
Proof.
  exists (improvement (rmse actual garch) (rmse actual lstm)). split; [|split].
  - unfold key_metrics. rewrite Ha, Hg, Hl, Hrows. reflexivity.
  - intros ->. apply improvement_zero.
  - intros g l -> Hne ->. now apply improvement_nonzero.
Qed.

Lemma improvement_policy_witness :
  exists shown : Float,
    key_metrics exact_garch =
      Done [subheader "Model Performance at a Glance";
            metric col1 "GARCH RMSE"
              (fmt 4 (rmse [Some 1; Some 2; Some 3]%R [Some 1; Some 2; Some 3]%R) "")
              (lit "");
            metric col2 "LSTM+GARCH RMSE"
              (fmt 4 (rmse [Some 1; Some 2; Some 3]%R [Some 2; Some 3; Some 4]%R) "")
              (fmt 1 shown "%");
            metric col3 "Improvement" (fmt 1 shown "%") (lit "vs GARCH")] tt /\
    (rmse [Some 1; Some 2; Some 3]%R [Some 1; Some 2; Some 3]%R = Some 0%R ->
     shown = Some 0%R) /\
    (forall g l,
       rmse [Some 1; Some 2; Some 3]%R [Some 1; Some 2; Some 3]%R = Some g ->
       g <> 0%R ->
       rmse [Some 1; Some 2; Some 3]%R [Some 2; Some 3; Some 4]%R = Some l ->
       shown = Some ((g - l) / g * 100)%R).
Proof.
  exact (@improvement_policy exact_garch
           [Some 1; Some 2; Some 3]%R [Some 1; Some 2; Some 3]%R
           [Some 2; Some 3; Some 4]%R eq_refl eq_refl eq_refl eq_refl).
Defined.

Lemma key_metrics_no_rows (df : DataFrame) :
  has_volatility_columns df ->
  empty df = true ->
  key_metrics df =
    Done [subheader "Model Performance at a Glance";
          info col1 no_data_message;
          info col2 no_data_message;
          info col3 no_data_message] tt.
Proof.
  intros (Ha & Hg & Hl) Hempty. unfold key_metrics, getitem.
  destruct (index_of "Actual_Volatility" (columns df)); [|contradiction].
  destruct (index_of "GARCH_Volatility" (columns df)); [|contradiction].
  destruct (index_of "Predicted_Volatility" (columns df)); [|contradiction].
  rewrite Hempty. reflexivity.
Qed.

(** C5. On a frame without rows that has the three volatility columns, the
    metrics section does not fail and computes nothing: it writes the
    "no data" message in each of the three metric columns. *)
Theorem empty_metrics_are_placeholders (df : DataFrame)
  (Hcols : has_volatility_columns df)
  (Hempty : empty df = true) :
  key_metrics df =
    Done [subheader "Model Performance at a Glance";
          info col1 no_data_message;
          info col2 no_data_message;
          info col3 no_data_message] tt.
Proof. now apply key_metrics_no_rows. Qed.

Lemma empty_metrics_are_placeholders_witness :
  key_metrics (mkFrame volatility_columns []) =
    Done [subheader "Model Performance at a Glance";
          info col1 no_data_message;
          info col2 no_data_message;
          info col3 no_data_message] tt.
Proof.
  apply empty_metrics_are_placeholders; [|reflexivity].
  repeat split; discriminate.
Defined.

(** ** Charts and the whole pass *)

Lemma combine_Date_column (j : nat) (df : DataFrame) :
  combine (getitem_Date df) (map (cell_at j) (rows df)) = series_points j df.
Proof.
  unfold getitem_Date, series_points.
  induction (rows df) as [|r rs IH]; simpl; [reflexivity|].
  now rewrite IH.
Qed.

(** C4. On a frame with the three volatility columns, for every pair of
    toggles, the overlay figure holds the actual-volatility series first,
    then the GARCH series if and only if show_garch, then the hybrid series
    if and only if show_lstm, and nothing else; with both toggles off it is
    the actual-volatility series alone.  Each series lists the (date, value)
    pairs of its column in the order of the frame's rows. *)
Theorem overlay_traces (df : DataFrame) (ja jg jl : nat) (show_garch show_lstm : bool)
  (Ha : index_of "Actual_Volatility" (columns df) = Some ja)
  (Hg : index_of "GARCH_Volatility" (columns df) = Some jg)
  (Hl : index_of "Predicted_Volatility" (columns df) = Some jl) :
  exists fig ta tg tl,
    main_chart df show_garch show_lstm =
      Done [subheader "Volatility Forecast vs Actual"; plotly_chart fig] tt /\
    fig = [ta] ++ (if show_garch then [tg] else []) ++ (if show_lstm then [tl] else []) /\
    trace_name ta = "Actual Volatility" /\ points ta = series_points ja df /\
    trace_name tg = "GARCH Forecast" /\ points tg = series_points jg df /\
    trace_name tl = "LSTM+GARCH Forecast" /\ points tl = series_points jl df /\
    In ta fig /\
    (In tg fig <-> show_garch = true) /\
    (In tl fig <-> show_lstm = true) /\
    (show_garch = false -> show_lstm = false -> fig = [ta]).
Proof.
  exists ([mkTrace "Actual Volatility" (getitem_Date df) (map (cell_at ja) (rows df))]
          ++ (if show_garch
              then [mkTrace "GARCH Forecast" (getitem_Date df) (map (cell_at jg) (rows df))]
              else [])
          ++ (if show_lstm
              then [mkTrace "LSTM+GARCH Forecast" (getitem_Date df)
                            (map (cell_at jl) (rows df))]
              else [])).
  exists (mkTrace "Actual Volatility" (getitem_Date df) (map (cell_at ja) (rows df))).
  exists (mkTrace "GARCH Forecast" (getitem_Date df) (map (cell_at jg) (rows df))).
  exists (mkTrace "LSTM+GARCH Forecast" (getitem_Date df) (map (cell_at jl) (rows df))).
  split.
  { unfold main_chart, overlay.
    rewrite (getitem_index df _ Ha), (getitem_index df _ Hg), (getitem_index df _ Hl).
    destruct show_garch, show_lstm; reflexivity. }
  split; [reflexivity|].
  unfold points. cbn [trace_name trace_x trace_y].
  rewrite !combine_Date_column.
  repeat (split; [reflexivity|]).
  split; [now left|].
  split; [|split].
  - destruct show_garch, show_lstm; simpl; split; intros H;
      try reflexivity; try (now auto); trace_cases H.
  - destruct show_garch, show_lstm; simpl; split; intros H;
      try reflexivity; try (now auto); trace_cases H.
  - now intros -> ->.
Qed.

Lemma overlay_traces_witness :
  exists fig ta tg tl,
    main_chart exact_garch false false =
      Done [subheader "Volatility Forecast vs Actual"; plotly_chart fig] tt /\
    fig = [ta] ++ [] ++ [] /\
    trace_name ta = "Actual Volatility" /\ points ta = series_points 0 exact_garch /\
    trace_name tg = "GARCH Forecast" /\ points tg = series_points 1 exact_garch /\
    trace_name tl = "LSTM+GARCH Forecast" /\ points tl = series_points 2 exact_garch /\
    In ta fig /\
    (In tg fig <-> false = true) /\
    (In tl fig <-> false = true) /\
    (false = false -> false = false -> fig = [ta]).
Proof.
  exact (@overlay_traces exact_garch 0 1 2 false false eq_refl eq_refl eq_refl).
Defined.

(** C6 fails as stated: with records on day 1 and day 10 and the range day 3
    to day 5 the filter result has no rows, the pass is in the state Empty,
    and the page still holds the overlay chart (three series without points)
    and the data table (without rows), next to the placeholders of the
    metrics and of the histograms. *)
Lemma empty_range_renders_chart_and_table :
  state_of_pass (Readable gap_file) gap_controls = Some Empty /\
  app (Readable gap_file) gap_controls =
    Done (page_of page_header ++
          [header_in sidebar "Dashboard Controls";
           slider_shown 1 10 (3, 5);
           checkbox_shown "Show GARCH Forecast" true;
           checkbox_shown "Show LSTM+GARCH Forecast" true;
           subheader "Model Performance at a Glance";
           info col1 no_data_message;
           info col2 no_data_message;
           info col3 no_data_message;
           subheader "Volatility Forecast vs Actual";
           plotly_chart [mkTrace "Actual Volatility" [] [];
                         mkTrace "GARCH Forecast" [] [];
                         mkTrace "LSTM+GARCH Forecast" [] []];
           subheader "Forecast Error Distribution";
           info main no_data_histogram_message;
           subheader "Raw Forecast Data (Filtered)";
           dataframe (mkFrame volatility_columns [])
                     [("Actual_Volatility", 4%nat); ("Predicted_Volatility", 4%nat);
                      ("GARCH_Volatility", 4%nat)]] ++
          page_of footer) tt /\
  (exists w, In w (page_of (app (Readable gap_file) gap_controls)) /\
             is_view w = true /\ is_placeholder w = false).
Proof.
  split; [reflexivity|]. split; [reflexivity|].
  exists (dataframe (mkFrame volatility_columns [])
                    [("Actual_Volatility", 4%nat); ("Predicted_Volatility", 4%nat);
                     ("GARCH_Volatility", 4%nat)]).
  split; [|split; reflexivity].
  simpl. do 16 right. now left.
Qed.

(** The pass after a successful load: the sidebar, then the views. *)
Lemma app_loaded (fs : FileState) (ui : Controls) (df : DataFrame) (lo hi : date) :
  load_data fs = Ok df ->
  option_map to_date (series_min (getitem_Date df)) = Some lo ->
  option_map to_date (series_max (getitem_Date df)) = Some hi ->
  let range := match chosen_range ui with
               | Some v => v
               | None => (lo, hi)
               end in
  app fs ui =
    (page_header ;;
     emit (header_in sidebar "Dashboard Controls") ;;
     emit (slider_shown lo hi range) ;;
     emit (checkbox_shown "Show GARCH Forecast" (show_garch ui)) ;;
     emit (checkbox_shown "Show LSTM+GARCH Forecast" (show_lstm ui)) ;;
     views df (fst range) (snd range) (show_garch ui) (show_lstm ui)).
Proof.
  intros Hload Hlo Hhi range. unfold app, load_or_stop.
  rewrite Hload. cbv beta iota zeta delta [bind ret emit page_header app].
  rewrite Hlo, Hhi. unfold slider, checkbox.
  cbv beta iota zeta delta [bind ret emit]. fold range.
  cbv beta iota zeta delta [bind ret emit page_header].
  destruct (views df (fst range) (snd range) (show_garch ui) (show_lstm ui));
    reflexivity.
Qed.

Lemma main_chart_no_rows (cols : list string) (show_garch show_lstm : bool) :
  has_volatility_columns (mkFrame cols ([] : list (Row (option Timestamp)))) ->
  main_chart (mkFrame cols []) show_garch show_lstm =
    Done [subheader "Volatility Forecast vs Actual";
          plotly_chart ([mkTrace "Actual Volatility" [] []] ++
                        (if show_garch then [mkTrace "GARCH Forecast" [] []] else []) ++
                        (if show_lstm then [mkTrace "LSTM+GARCH Forecast" [] []] else []))]
         tt.
Proof.
  intros (Ha & Hg & Hl). unfold main_chart, overlay, getitem.
  cbn [columns rows getitem_Date map] in *.
  destruct (index_of "Actual_Volatility" cols); [|contradiction].
  destruct (index_of "GARCH_Volatility" cols); [|contradiction].
  destruct (index_of "Predicted_Volatility" cols); [|contradiction].
  destruct show_garch, show_lstm; reflexivity.
Qed.

Lemma views_empty (df : DataFrame) (start_date end_date : date)
    (show_garch show_lstm : bool) :
  has_volatility_columns df ->
  filter (row_in_range start_date end_date) (rows df) = [] ->
  views df start_date end_date show_garch show_lstm =
    Done ([subheader "Model Performance at a Glance";
           info col1 no_data_message;
           info col2 no_data_message;
           info col3 no_data_message] ++
          [subheader "Volatility Forecast vs Actual";
           plotly_chart ([mkTrace "Actual Volatility" [] []] ++
                         (if show_garch then [mkTrace "GARCH Forecast" [] []] else []) ++
                         (if show_lstm then [mkTrace "LSTM+GARCH Forecast" [] []] else []))] ++
          [subheader "Forecast Error Distribution";
           info main no_data_histogram_message] ++
          [subheader "Raw Forecast Data (Filtered)";
           dataframe (mkFrame (columns df) [])
                     [("Actual_Volatility", 4%nat); ("Predicted_Volatility", 4%nat);
                      ("GARCH_Volatility", 4%nat)]] ++
          page_of footer) tt.
Proof.
  intros Hcols Hnone. unfold views.
  rewrite filter_frame_eq, Hnone. cbv beta iota delta [bind lift].
  rewrite key_metrics_no_rows by (assumption || reflexivity).
  rewrite main_chart_no_rows by assumption.
  destruct show_garch, show_lstm; reflexivity.
Qed.

(** C6, as the code has it.  When the filter result has no rows (the state
    Empty) on a loaded frame with the three volatility columns, the pass
    completes; the metrics are the "no data" message in each of the three
    columns and the two histograms are one "no data" message, while the
    overlay chart is still drawn, with the actual series and the toggled
    series and no point in any of them, and the data table is still shown,
    with the frame's columns and no rows. *)
Theorem empty_state_page (fs : FileState) (ui : Controls) (df : DataFrame)
  (Hload : load_data fs = Ok df)
  (Hcols : has_volatility_columns df)
  (Hstate : state_of_pass fs ui = Some Empty) :
  exists lo hi range,
    app fs ui =
      Done (page_of page_header ++
            [header_in sidebar "Dashboard Controls";
             slider_shown lo hi range;
             checkbox_shown "Show GARCH Forecast" (show_garch ui);
             checkbox_shown "Show LSTM+GARCH Forecast" (show_lstm ui)] ++
            [subheader "Model Performance at a Glance";
             info col1 no_data_message;
             info col2 no_data_message;
             info col3 no_data_message] ++
            [subheader "Volatility Forecast vs Actual";
             plotly_chart
               ([mkTrace "Actual Volatility" [] []] ++
                (if show_garch ui then [mkTrace "GARCH Forecast" [] []] else []) ++
                (if show_lstm ui then [mkTrace "LSTM+GARCH Forecast" [] []] else []))] ++
            [subheader "Forecast Error Distribution";
             info main no_data_histogram_message] ++
            [subheader "Raw Forecast Data (Filtered)";
             dataframe (mkFrame (columns df) [])
                       [("Actual_Volatility", 4%nat); ("Predicted_Volatility", 4%nat);
                        ("GARCH_Volatility", 4%nat)]] ++
            page_of footer) tt.
Proof.
  unfold state_of_pass in Hstate. rewrite Hload in Hstate.
  destruct (option_map to_date (series_min (getitem_Date df))) as [lo|] eqn:Elo;
    [|discriminate].
  destruct (option_map to_date (series_max (getitem_Date df))) as [hi|] eqn:Ehi;
    [|discriminate].
  exists lo, hi.
  exists (match chosen_range ui with Some v => v | None => (lo, hi) end).
  rewrite (app_loaded fs ui Hload Elo Ehi).
  unfold state_of_views in Hstate. rewrite filter_frame_eq in Hstate.
  unfold empty in Hstate. cbn [rows] in Hstate.
  rewrite views_empty; [reflexivity|assumption|].
  destruct (filter _ (rows df)); [reflexivity|discriminate].
Qed.

Lemma empty_state_page_witness :
  exists lo hi range,
    app (Readable gap_file) gap_controls =
      Done (page_of page_header ++
            [header_in sidebar "Dashboard Controls";
             slider_shown lo hi range;
             checkbox_shown "Show GARCH Forecast" true;
             checkbox_shown "Show LSTM+GARCH Forecast" true] ++
            [subheader "Model Performance at a Glance";
             info col1 no_data_message;
             info col2 no_data_message;
             info col3 no_data_message] ++
            [subheader "Volatility Forecast vs Actual";
             plotly_chart
               ([mkTrace "Actual Volatility" [] []] ++
                [mkTrace "GARCH Forecast" [] []] ++
                [mkTrace "LSTM+GARCH Forecast" [] []])] ++
            [subheader "Forecast Error Distribution";
             info main no_data_histogram_message] ++
            [subheader "Raw Forecast Data (Filtered)";
             dataframe (mkFrame volatility_columns [])
                       [("Actual_Volatility", 4%nat); ("Predicted_Volatility", 4%nat);
                        ("GARCH_Volatility", 4%nat)]] ++
            page_of footer) tt.
Proof.
  apply (@empty_state_page (Readable gap_file) gap_controls
           (mkFrame volatility_columns
              [mkRow (Some (day 1)) [Some 1%R; Some 1%R; Some 2%R];
               mkRow (Some (day 10)) [Some 2%R; Some 2%R; Some 3%R]])).
  - reflexivity.
  - repeat split; discriminate.
  - reflexivity.
Defined.

(** ** The states and the outcome of the pass agree *)

Lemma views_never_stops (df : DataFrame) (start_date end_date : date)
    (show_garch show_lstm : bool) (p : list Widget) :
  views df start_date end_date show_garch show_lstm <> Stop p.
Proof.
  unfold views. rewrite filter_frame_eq. cbv beta iota delta [bind lift].
  unfold key_metrics, main_chart, overlay, error_distribution, data_table, footer,
    getitem.
  cbn [columns rows].
  destruct (index_of "Actual_Volatility" (columns df));
    destruct (index_of "GARCH_Volatility" (columns df));
    destruct (index_of "Predicted_Volatility" (columns df));
    destruct (empty _); destruct show_garch; destruct show_lstm; discriminate.
Qed.

(** The script stops early exactly in the state LoadError. *)
Lemma stops_iff_load_error (fs : FileState) (ui : Controls) :
  (exists p, app fs ui = Stop p) <-> state_of_pass fs ui = Some LoadError.
Proof.
  unfold state_of_pass. destruct (load_data fs) as [df|e] eqn:Hload.
  - destruct (option_map to_date (series_min (getitem_Date df))) as [lo|] eqn:Elo.
    + destruct (option_map to_date (series_max (getitem_Date df))) as [hi|] eqn:Ehi.
      * rewrite (app_loaded fs ui Hload Elo Ehi). cbv zeta.
        set (range := match chosen_range ui with Some v => v | None => (lo, hi) end).
        unfold state_of_views. rewrite filter_frame_eq.
        pose proof (@views_never_stops df (fst range) (snd range)
                      (show_garch ui) (show_lstm ui)) as Hv.
        split.
        -- intros [p Hp]. exfalso. revert Hp.
           cbv beta iota delta [bind emit page_header].
           destruct (views df (fst range) (snd range) (show_garch ui) (show_lstm ui))
             as [q []|q|q e]; try discriminate.
           now contradiction (Hv q).
        -- now destruct (empty _).
      * split; [|discriminate]. intros [p Hp]. exfalso. revert Hp.
        unfold app, load_or_stop. rewrite Hload.
        cbv beta iota zeta delta [bind ret emit page_header].
        rewrite Elo, Ehi. discriminate.
    + split; [|discriminate]. intros [p Hp]. exfalso. revert Hp.
      unfold app, load_or_stop. rewrite Hload.
      cbv beta iota zeta delta [bind ret emit page_header].
      rewrite Elo. discriminate.
  - unfold app, load_or_stop. rewrite Hload.
    destruct e; split; try discriminate; try reflexivity;
      try (intros [p Hp]; discriminate Hp); intros _; eexists; reflexivity.
Qed.

(** A frame without the column Actual_Volatility loads, and the column is
    missed only when the metrics section reads it. *)
Example missing_column_raises_at_first_read :
  app (Readable no_actual_file) (mkControls None true true) =
    Fail (page_of page_header ++
          [header_in sidebar "Dashboard Controls";
           slider_shown 1 1 (1, 1);
           checkbox_shown "Show GARCH Forecast" true;
           checkbox_shown "Show LSTM+GARCH Forecast" true;
           subheader "Model Performance at a Glance"])
         KeyError.
Proof. reflexivity. Qed.

(** ** Further properties of the filter (lines 50-66) *)

Lemma to_date_range (t : Timestamp) (lo hi : date) :
  lo <= to_date t <= hi <-> day lo <= t < day (hi + 1).
Proof.
  unfold to_date, day.
  pose proof (Z.div_mod t ns_per_day) as Hdm.
  pose proof (Z.mod_pos_bound t ns_per_day) as Hb.
  unfold ns_per_day in *. lia.
Qed.

(** X1. The filter goes by calendar day: a row is kept exactly when it has a
    timestamp from the first instant of start_date up to, and not including,
    the first instant of the day after end_date; a row without a date is
    never kept. *)
Theorem filter_keeps_whole_days (df : DataFrame) (start_date end_date : date) :
  exists out,
    filter_frame df start_date end_date = Ok out /\
    forall r, In r (rows out) <->
              In r (rows df) /\
              exists t, Date r = Some t /\ day start_date <= t < day (end_date + 1).
Proof.
  eexists. split; [apply filter_frame_eq|]. cbn [rows].
  intros r. rewrite filter_In, row_in_range_spec. unfold date_within, dt_date.
  split; intros [Hin H]; (split; [exact Hin|]).
  - destruct H as [d [E Hd]]. destruct (Date r) as [t|]; [|discriminate].
    exists t. split; [reflexivity|]. inversion E; subst. now apply to_date_range.
  - destruct H as [t [-> Ht]]. exists (to_date t). split; [reflexivity|].
    now apply to_date_range.
Qed.

(** Times of day: the last nanosecond before day 5 is out of the range day 5
    to day 5, midnight and the last nanosecond of day 5 are in, the next
    midnight and the row without a date are out. *)
Example filter_intraday :
  filter_frame intraday 5 5 =
  Ok (mkFrame volatility_columns
        [mkRow (Some (day 5)) [Some 2%R; Some 2%R; Some 3%R];
         mkRow (Some (day 6 - 1)) [Some 3%R; Some 3%R; Some 4%R]]).
Proof. reflexivity. Qed.

Lemma series_min_spec (s : list (option Timestamp)) :
  match series_min s with
  | Some m => In (Some m) s /\ forall t, In (Some t) s -> m <= t
  | None => forall d, In d s -> d = None
  end.
Proof.
  induction s as [|[t|] s IH]; simpl.
  - intros d [].
  - destruct (series_min s) as [m|].
    + destruct IH as [Hin Hle]. split.
      * destruct (Z.min_spec t m) as [[_ ->]|[_ ->]]; auto.
      * intros u [E|Hu]; [inversion E; lia|]. specialize (Hle u Hu). lia.
    + split; [now left|]. intros u [E|Hu]; [inversion E; lia|].
      specialize (IH _ Hu). discriminate.
  - destruct (series_min s) as [m|].
    + destruct IH as [Hin Hle]. split; [now right|].
      intros u [E|Hu]; [discriminate|auto].
    + intros d [<-|Hd]; auto.
Qed.

Lemma series_max_spec (s : list (option Timestamp)) :
  match series_max s with
  | Some m => In (Some m) s /\ forall t, In (Some t) s -> t <= m
  | None => forall d, In d s -> d = None
  end.
Proof.
  induction s as [|[t|] s IH]; simpl.
  - intros d [].
  - destruct (series_max s) as [m|].
    + destruct IH as [Hin Hle]. split.
      * destruct (Z.max_spec t m) as [[_ ->]|[_ ->]]; auto.
      * intros u [E|Hu]; [inversion E; lia|]. specialize (Hle u Hu). lia.
    + split; [now left|]. intros u [E|Hu]; [inversion E; lia|].
      specialize (IH _ Hu). discriminate.
  - destruct (series_max s) as [m|].
    + destruct IH as [Hin Hle]. split; [now right|].
      intros u [E|Hu]; [discriminate|auto].
    + intros d [<-|Hd]; auto.
Qed.

(** X2. The bounds of the slider (lines 50-51): when some row has a date,
    [min()] and [max()] are timestamps of the Date column, every timestamp
    of the column lies between them, and so min_date <= max_date; when no row
    has a date both are NaT; one is never NaT without the other. *)
Theorem slider_bounds (df : DataFrame) :
  match series_min (getitem_Date df), series_max (getitem_Date df) with
  | Some lo, Some hi =>
      In (Some lo) (getitem_Date df) /\ In (Some hi) (getitem_Date df) /\
      (forall t, In (Some t) (getitem_Date df) ->
                 lo <= t <= hi /\ to_date lo <= to_date t <= to_date hi) /\
      to_date lo <= to_date hi
  | None, None => forall d, In d (getitem_Date df) -> d = None
  | _, _ => False
  end.
Proof.
  pose proof (series_min_spec (getitem_Date df)) as Hmin.
  pose proof (series_max_spec (getitem_Date df)) as Hmax.
  assert (Hmono : forall a b, a <= b -> to_date a <= to_date b).
  { intros a b Hab. unfold to_date. apply Z.div_le_mono; [reflexivity|exact Hab]. }
  destruct (series_min (getitem_Date df)) as [lo|],
           (series_max (getitem_Date df)) as [hi|].
  - destruct Hmin as [Ilo Hlo], Hmax as [Ihi Hhi].
    split; [exact Ilo|]. split; [exact Ihi|]. split.
    + intros t Ht. specialize (Hlo t Ht). specialize (Hhi t Ht).
      split; [lia|]. split; apply Hmono; assumption.
    + apply Hmono. now apply Hlo.
  - destruct Hmin as [Ilo _]. specialize (Hmax _ Ilo). discriminate.
  - destruct Hmax as [Ihi _]. specialize (Hmin _ Ihi). discriminate.
  - exact Hmin.
Qed.

Lemma filter_all {A} (f g : A -> bool) (xs : list A) :
  (forall a, In a xs -> f a = g a) -> filter f xs = filter g xs.
Proof.
  induction xs as [|a xs IH]; intros H; simpl; [reflexivity|].
  rewrite (H a (or_introl eq_refl)), IH; [reflexivity|].
  intros b Hb. apply H. now right.
Qed.

Lemma filter_true {A} (f : A -> bool) (xs : list A) :
  (forall a, In a xs -> f a = true) -> filter f xs = xs.
Proof.
  induction xs as [|a xs IH]; intros H; simpl; [reflexivity|].
  rewrite (H a (or_introl eq_refl)), IH; [reflexivity|].
  intros b Hb. apply H. now right.
Qed.

(** X3. The slider's initial value (min_date, max_date) selects every row
    that has a date, in frame order; on a frame where every row has a date
    the filtered frame is the frame itself. *)
Theorem default_range_keeps_dated_rows (df : DataFrame) (lo hi : date)
  (Hlo : option_map to_date (series_min (getitem_Date df)) = Some lo)
  (Hhi : option_map to_date (series_max (getitem_Date df)) = Some hi) :
  filter_frame df lo hi = Ok (mkFrame (columns df) (filter has_date (rows df))) /\
  ((forall r, In r (rows df) -> Date r <> None) ->
   filter_frame df lo hi = Ok df).
Proof.
  pose proof (series_min_spec (getitem_Date df)) as Hmin.
  pose proof (series_max_spec (getitem_Date df)) as Hmax.
  destruct (series_min (getitem_Date df)) as [tlo|]; [|discriminate].
  destruct (series_max (getitem_Date df)) as [thi|]; [|discriminate].
  simpl in Hlo, Hhi. inversion Hlo; inversion Hhi; subst. clear Hlo Hhi.
  destruct Hmin as [_ Hmin], Hmax as [_ Hmax].
  assert (HB : forall t, In (Some t) (getitem_Date df) ->
                         to_date tlo <= to_date t <= to_date thi).
  { intros t Ht. specialize (Hmin t Ht). specialize (Hmax t Ht).
    unfold to_date. split; apply Z.div_le_mono; solve [reflexivity | assumption]. }
  assert (E : filter (row_in_range (to_date tlo) (to_date thi)) (rows df)
              = filter has_date (rows df)).
  { apply filter_all. intros r Hr. unfold row_in_range, has_date, dt_date.
    destruct (Date r) as [t|] eqn:Et; [|reflexivity]. simpl.
    assert (Hin : In (Some t) (getitem_Date df)).
    { unfold getitem_Date. rewrite <- Et. now apply in_map. }
    destruct (HB t Hin) as [H1 H2].
    apply andb_true_iff. split; now apply Z.leb_le. }
  rewrite filter_frame_eq, E. split; [reflexivity|].
  intros Hall. rewrite filter_true; [now destruct df|].
  intros r Hr. unfold has_date. specialize (Hall r Hr).
  now destruct (Date r).
Qed.

Lemma default_range_keeps_dated_rows_witness :
  filter_frame ten_days 1 10
    = Ok (mkFrame (columns ten_days) (filter has_date (rows ten_days))) /\
  ((forall r, In r (rows ten_days) -> Date r <> None) ->
   filter_frame ten_days 1 10 = Ok ten_days).
Proof.
  exact (@default_range_keeps_dated_rows ten_days 1 10 eq_refl eq_refl).
Defined.

Lemma filter_filter_and {A} (f g : A -> bool) (xs : list A) :
  filter g (filter f xs) = filter (fun a => f a && g a) xs.
Proof.
  induction xs as [|a xs IH]; simpl; [reflexivity|].
  destruct (f a); simpl; [destruct (g a)|]; now rewrite IH.
Qed.

Lemma row_in_range_meet (s1 e1 s2 e2 : date) (r : Row (option Timestamp)) :
  row_in_range s1 e1 r && row_in_range s2 e2 r =
  row_in_range (Z.max s1 s2) (Z.min e1 e2) r.
Proof.
  unfold row_in_range, date_ge, date_le.
  destruct (dt_date (Date r)) as [d|]; [|reflexivity].
  destruct (s1 <=? d) eqn:A1, (d <=? e1) eqn:B1, (s2 <=? d) eqn:A2,
           (d <=? e2) eqn:B2, (Z.max s1 s2 <=? d) eqn:A, (d <=? Z.min e1 e2) eqn:B;
    try reflexivity;
    rewrite ?Z.leb_le, ?Z.leb_gt in *; lia.
Qed.

(** X4. Two filters in a row are one filter by the intersection of the two
    ranges: filtering by [s1, e1] and then by [s2, e2] gives the frame that
    filtering by [max s1 s2, min e1 e2] gives; so the order of two filters
    does not matter. *)
Theorem filter_twice_is_intersection (df : DataFrame) (s1 e1 s2 e2 : date) :
  res_bind (filter_frame df s1 e1) (fun out => filter_frame out s2 e2)
    = filter_frame df (Z.max s1 s2) (Z.min e1 e2) /\
  res_bind (filter_frame df s1 e1) (fun out => filter_frame out s2 e2)
    = res_bind (filter_frame df s2 e2) (fun out => filter_frame out s1 e1).
Proof.
  assert (H : forall a b c d,
             res_bind (filter_frame df a b) (fun out => filter_frame out c d)
             = filter_frame df (Z.max a c) (Z.min b d)).
  { intros a b c d. rewrite (filter_frame_eq df a b). cbn [res_bind].
    rewrite !filter_frame_eq. cbn [columns rows].
    rewrite filter_filter_and. do 2 f_equal.
    apply filter_all. intros r _. apply row_in_range_meet. }
  split; [apply H|].
  rewrite !H. now rewrite Z.max_comm, Z.min_comm.
Qed.

(** X5. Narrowing the range only removes rows: when [s1, e1] contains
    [s2, e2], the rows selected by [s2, e2] are a selection, in order, of the
    rows selected by [s1, e1], and filtering the wider result by the
    narrower range gives the narrower result. *)
Theorem narrower_range_selects_less (df : DataFrame) (s1 e1 s2 e2 : date)
  (Hs : s1 <= s2) (He : e2 <= e1) :
  exists wide narrow,
    filter_frame df s1 e1 = Ok wide /\
    filter_frame df s2 e2 = Ok narrow /\
    sub (rows narrow) (rows wide) /\
    filter_frame wide s2 e2 = Ok narrow.
Proof.
  do 2 eexists. split; [apply filter_frame_eq|]. split; [apply filter_frame_eq|].
  cbn [rows].
  assert (E : filter (row_in_range s2 e2) (filter (row_in_range s1 e1) (rows df))
              = filter (row_in_range s2 e2) (rows df)).
  { rewrite filter_filter_and. apply filter_all. intros r _.
    rewrite row_in_range_meet. now rewrite Z.max_r, Z.min_r by lia. }
  split.
  - rewrite <- E. apply filter_sub.
  - rewrite filter_frame_eq. cbn [columns rows]. now rewrite E.
Qed.

Lemma narrower_range_selects_less_witness :
  exists wide narrow,
    filter_frame ten_days 2 8 = Ok wide /\
    filter_frame ten_days 3 5 = Ok narrow /\
    sub (rows narrow) (rows wide) /\
    filter_frame wide 3 5 = Ok narrow.
Proof.
  apply (@narrower_range_selects_less ten_days 2 8 3 5); lia.
Defined.

Lemma select_map {A B} (f : A -> B) (xs : list A) (m : list bool) :
  select (map f xs) m = map f (select xs m).
Proof.
  revert m. induction xs as [|a xs IH]; intros [|b m]; simpl; try reflexivity.
  destruct b; simpl; now rewrite IH.
Qed.

(** X6. Reading a column commutes with filtering: a column of the filtered
    frame is the column of the frame with the mask applied, and a column
    missing from the frame is missing ([KeyError]) from the filtered frame
    too, also when no row is selected. *)
Theorem column_of_filtered_frame (df : DataFrame) (start_date end_date : date)
    (name : string) :
  res_bind (filter_frame df start_date end_date) (fun out => getitem out name)
  = res_bind (getitem df name)
             (fun column => Ok (select column (mask df start_date end_date))).
Proof.
  rewrite filter_frame_eq. cbn [res_bind]. unfold getitem. cbn [columns rows].
  destruct (index_of name (columns df)) as [j|]; [|reflexivity].
  cbn [res_bind]. rewrite select_map, mask_rows, select_map_filter. reflexivity.
Qed.

Lemma overlay_points (df : DataFrame) (show_garch show_lstm : bool) (fig : Figure) :
  overlay df show_garch show_lstm = Ok fig ->
  forall tr, In tr fig ->
    exists j, points tr = series_points j df.
Proof.
  unfold overlay, getitem.
  destruct (index_of "Actual_Volatility" (columns df)) as [ja|]; [|discriminate].
  cbn [res_bind].
  destruct show_garch.
  - destruct (index_of "GARCH_Volatility" (columns df)) as [jg|]; [|discriminate].
    cbn [res_bind]. destruct show_lstm.
    + destruct (index_of "Predicted_Volatility" (columns df)) as [jl|]; [|discriminate].
      cbn [res_bind]. intros E tr Htr. inversion E; subst.
      destruct Htr as [<-|[<-|[<-|[]]]]; eexists; apply combine_Date_column.
    + intros E tr Htr. inversion E; subst.
      destruct Htr as [<-|[<-|[]]]; eexists; apply combine_Date_column.
  - cbn [res_bind]. destruct show_lstm.
    + destruct (index_of "Predicted_Volatility" (columns df)) as [jl|]; [|discriminate].
      cbn [res_bind]. intros E tr Htr. inversion E; subst.
      destruct Htr as [<-|[<-|[]]]; eexists; apply combine_Date_column.
    + intros E tr Htr. inversion E; subst.
      destruct Htr as [<-|[]]; eexists; apply combine_Date_column.
Qed.

(** X7. Whatever the toggles, every series of the overlay chart drawn from
    the filtered frame has one point for each selected row, and the date of
    every point lies in the selected range. *)
Theorem plotted_points_in_range (df : DataFrame) (start_date end_date : date)
    (show_garch show_lstm : bool) (fig : Figure)
  (Hfig : res_bind (filter_frame df start_date end_date)
                   (fun out => overlay out show_garch show_lstm) = Ok fig) :
  forall tr, In tr fig ->
    List.length (points tr)
      = List.length (filter (row_in_range start_date end_date) (rows df)) /\
    forall p, In p (points tr) ->
      exists t, fst p = Some t /\ start_date <= to_date t <= end_date.
Proof.
  rewrite filter_frame_eq in Hfig. cbn [res_bind] in Hfig.
  intros tr Htr. destruct (overlay_points _ _ _ Hfig tr Htr) as [j ->].
  unfold series_points. cbn [rows]. split; [apply length_map|].
  intros p Hp. apply in_map_iff in Hp. destruct Hp as [r [<- Hr]].
  apply filter_In in Hr. destruct Hr as [_ Hr].
  apply row_in_range_spec in Hr. destruct Hr as [d [E Hd]].
  cbn [fst]. unfold dt_date in E. destruct (Date r) as [t|]; [|discriminate].
  exists t. split; [reflexivity|]. now inversion E; subst.
Qed.

Lemma plotted_points_in_range_witness :
  List.length
    (points (mkTrace "GARCH Forecast" [Some (day 3); Some (day 4); Some (day 5)]
                     [Some 1%R; Some 1%R; Some 1%R]))
    = List.length (filter (row_in_range 3 5) (rows ten_days)) /\
  forall p,
    In p (points (mkTrace "GARCH Forecast" [Some (day 3); Some (day 4); Some (day 5)]
                          [Some 1%R; Some 1%R; Some 1%R])) ->
    exists t, fst p = Some t /\ 3 <= to_date t <= 5.
Proof.
  apply (@plotted_points_in_range ten_days 3 5 true false
           [mkTrace "Actual Volatility" [Some (day 3); Some (day 4); Some (day 5)]
                    [Some 1%R; Some 1%R; Some 1%R];
            mkTrace "GARCH Forecast" [Some (day 3); Some (day 4); Some (day 5)]
                    [Some 1%R; Some 1%R; Some 1%R]]).
  - reflexivity.
  - right. left. reflexivity.
Defined.

(** ** Further properties of the metrics (lines 76-92) *)

Lemma present_pairs_In (actual pred : list Float) (u v : R) :
  In (u, v) (present_pairs actual pred) <-> In (Some u, Some v) (combine actual pred).
Proof.
  revert pred. induction actual as [|a actual IH]; intros [|p pred];
    try (simpl; tauto).
  - destruct a; simpl; tauto.
  - destruct a as [x|], p as [y|]; simpl; rewrite IH; split;
      try (intros [E|H]; [inversion E; subst|]); auto; try discriminate.
Qed.

Lemma present_pairs_app (a1 a2 p1 p2 : list Float) :
  List.length a1 = List.length p1 ->
  present_pairs (a1 ++ a2) (p1 ++ p2) = present_pairs a1 p1 ++ present_pairs a2 p2.
Proof.
  revert p1. induction a1 as [|a a1 IH]; intros [|p p1] H; simpl in H;
    try discriminate; [reflexivity|].
  assert (H' : List.length a1 = List.length p1) by lia.
  destruct a as [x|], p as [y|]; simpl; now rewrite (IH p1 H').
Qed.




(** X9. The RMSE is NaN exactly when no row has both the actual value and
    the prediction: on a frame with rows the metric is then shown as NaN,
    the "no data" message being kept for the frame without rows. *)
Theorem rmse_nan_iff_no_pair (actual pred : list Float) :
  rmse actual pred = NaN <->
  forall u v, ~ In (Some u, Some v) (combine actual pred).
Proof.
  rewrite rmse_eq_spec. unfold rmse_spec.
  destruct (present_pairs actual pred) as [|[u v] ps] eqn:E.
  - split; [|reflexivity]. intros _ u v H.
    apply present_pairs_In in H. now rewrite E in H.
  - split; [discriminate|]. intros H. exfalso. apply (H u v).
    apply present_pairs_In. rewrite E. now left.
Qed.

(** X10. A row where the actual value or the prediction is missing does not
    change the RMSE: the metric is the same with that row removed. *)
Theorem rmse_skips_incomplete_row (a1 a2 p1 p2 : list Float) (x y : Float)
  (Hlen : List.length a1 = List.length p1)
  (Hmissing : x = NaN \/ y = NaN) :
  rmse (a1 ++ x :: a2) (p1 ++ y :: p2) = rmse (a1 ++ a2) (p1 ++ p2).
Proof.
  rewrite !rmse_eq_spec. unfold rmse_spec.
  rewrite !present_pairs_app by assumption.
  replace (present_pairs (x :: a2) (y :: p2)) with (present_pairs a2 p2);
    [reflexivity|].
  destruct Hmissing as [->| ->]; [reflexivity|now destruct x].
Qed.

Lemma rmse_skips_incomplete_row_witness :
  rmse ([Some 1%R] ++ Some 5%R :: [Some 3%R]) ([Some 2%R] ++ NaN :: [Some 4%R])
  = rmse ([Some 1%R] ++ [Some 3%R]) ([Some 2%R] ++ [Some 4%R]).
Proof.
  apply rmse_skips_incomplete_row; [reflexivity|now right].
Defined.



(** ** Further properties of the sections and of the pass *)

Lemma series_sub_columns (ja jb : nat) (df : DataFrame) :
  series_sub (map (cell_at ja) (rows df)) (map (cell_at jb) (rows df))
  = residuals ja jb df.
Proof.
  unfold series_sub, residuals.
  induction (rows df) as [|r rs IH]; simpl; [reflexivity|].
  now rewrite IH.
Qed.

(** X12. The error-distribution section (lines 144-169) on a frame with the
    three volatility columns: with rows it shows two histograms of 30 bins,
    the first over actual - GARCH and the second over actual - hybrid, each
    with one residual for each row of the frame (NaN where a value is
    missing), whatever the toggles; without rows it shows one message and no
    histogram. *)
Theorem error_distribution_residuals (df : DataFrame) (ja jg jl : nat)
  (Ha : index_of "Actual_Volatility" (columns df) = Some ja)
  (Hg : index_of "GARCH_Volatility" (columns df) = Some jg)
  (Hl : index_of "Predicted_Volatility" (columns df) = Some jl) :
  error_distribution df =
    (if empty df then
       Done [subheader "Forecast Error Distribution";
             info main no_data_histogram_message] tt
     else
       Done [subheader "Forecast Error Distribution";
             plotly_histogram col1
               (mkHistogram "GARCH Forecast Errors" (residuals ja jg df) 30);
             plotly_histogram col2
               (mkHistogram "LSTM+GARCH Forecast Errors" (residuals ja jl df) 30)] tt) /\
  List.length (residuals ja jg df) = List.length (rows df) /\
  List.length (residuals ja jl df) = List.length (rows df) /\
  (forall i r, nth_error (rows df) i = Some r ->
     nth_error (residuals ja jg df) i = Some (fsub (cell_at ja r) (cell_at jg r)) /\
     nth_error (residuals ja jl df) i = Some (fsub (cell_at ja r) (cell_at jl r))).
Proof.
  split; [|split; [|split]].
  - unfold error_distribution.
    rewrite (getitem_index df _ Ha), (getitem_index df _ Hg), (getitem_index df _ Hl).
    rewrite <- !series_sub_columns. destruct (empty df); reflexivity.
  - apply length_map.
  - apply length_map.
  - intros i r Hr. unfold residuals. split.
    + exact (map_nth_error (fun r => fsub (cell_at ja r) (cell_at jg r)) _ _ Hr).
    + exact (map_nth_error (fun r => fsub (cell_at ja r) (cell_at jl r)) _ _ Hr).
Qed.

Lemma error_distribution_residuals_witness :
  error_distribution exact_garch =
    (if empty exact_garch then
       Done [subheader "Forecast Error Distribution";
             info main no_data_histogram_message] tt
     else
       Done [subheader "Forecast Error Distribution";
             plotly_histogram col1
               (mkHistogram "GARCH Forecast Errors" (residuals 0 1 exact_garch) 30);
             plotly_histogram col2
               (mkHistogram "LSTM+GARCH Forecast Errors" (residuals 0 2 exact_garch) 30)]
            tt) /\
  List.length (residuals 0 1 exact_garch) = List.length (rows exact_garch) /\
  List.length (residuals 0 2 exact_garch) = List.length (rows exact_garch) /\
  (forall i r, nth_error (rows exact_garch) i = Some r ->
     nth_error (residuals 0 1 exact_garch) i = Some (fsub (cell_at 0 r) (cell_at 1 r)) /\
     nth_error (residuals 0 2 exact_garch) i = Some (fsub (cell_at 0 r) (cell_at 2 r))).
Proof.
  exact (@error_distribution_residuals exact_garch 0 1 2 eq_refl eq_refl eq_refl).
Defined.

(** X13. A missing volatility column ends everything below the sidebar at
    its first read (lines 76-78): whichever of the three columns is missing,
    whatever the range and the toggles, and also when no row is selected, the
    pass raises [KeyError] right after the first subheader, before any
    metric, chart, histogram or table. *)
Theorem missing_column_raises_KeyError (df : DataFrame) (start_date end_date : date)
    (show_garch show_lstm : bool)
  (Hmissing : index_of "Actual_Volatility" (columns df) = None \/
              index_of "GARCH_Volatility" (columns df) = None \/
              index_of "Predicted_Volatility" (columns df) = None) :
  views df start_date end_date show_garch show_lstm =
    Fail [subheader "Model Performance at a Glance"] KeyError.
Proof.
  unfold views. rewrite filter_frame_eq. cbv beta iota delta [bind lift].
  unfold key_metrics, getitem. cbn [columns rows].
  destruct (index_of "Actual_Volatility" (columns df)); [|reflexivity].
  destruct (index_of "GARCH_Volatility" (columns df)); [|reflexivity].
  destruct (index_of "Predicted_Volatility" (columns df)); [|reflexivity].
  destruct Hmissing as [H|[H|H]]; discriminate H.
Qed.

Lemma missing_column_raises_KeyError_witness :
  views (mkFrame ["GARCH_Volatility"; "Predicted_Volatility"]
                 [mkRow (Some (day 1)) [Some 1%R; Some 2%R]]) 1 1 true true =
    Fail [subheader "Model Performance at a Glance"] KeyError.
Proof.
  apply missing_column_raises_KeyError. left. reflexivity.
Defined.

(** X14. The handler of lines 37-41 catches the missing file only: any
    other exception of [load_data] ends the pass with that exception, after
    the page header and without the error message or anything else. *)
Theorem unhandled_load_failure (fs : FileState) (ui : Controls) (e : exn)
  (Hload : load_data fs = Raise e)
  (Hother : e <> FileNotFoundError) :
  app fs ui = Fail (page_of page_header) e.
Proof.
  unfold app, load_or_stop. rewrite Hload.
  destruct e; try reflexivity. now contradiction Hother.
Qed.

Lemma unhandled_load_failure_witness :
  app Unreadable gap_controls = Fail (page_of page_header) PermissionError.
Proof.
  apply unhandled_load_failure; [reflexivity|discriminate].
Defined.

(** X15. The script calls [st.stop()] exactly when the file does not exist:
    the pass stops early if and only if the file is missing, and the page is
    then the page header followed by the error message. *)
Theorem stops_iff_file_missing (fs : FileState) (ui : Controls) :
  ((exists p, app fs ui = Stop p) <-> fs = NoSuchFile) /\
  (forall p, app fs ui = Stop p ->
             p = page_of page_header ++ [error not_found_message]).
Proof.
  assert (Hfs : state_of_pass fs ui = Some LoadError <-> fs = NoSuchFile).
  { split.
    - unfold state_of_pass. destruct fs as [| |csv]; [reflexivity| |].
      + discriminate.
      + rewrite load_data_readable.
        destruct (existsb is_Date (header csv)); [|discriminate].
        destruct (parse_all _) as [ts|]; [|discriminate].
        match goal with
        | |- context [option_map to_date (series_min ?s)] =>
            destruct (option_map to_date (series_min s));
            [destruct (option_map to_date (series_max s))|]
        end; try discriminate.
        unfold state_of_views. rewrite filter_frame_eq.
        now destruct (empty _).
    - now intros ->. }
  split.
  - rewrite stops_iff_load_error. exact Hfs.
  - intros p Hp.
    assert (E : fs = NoSuchFile).
    { apply Hfs. apply stops_iff_load_error. now exists p. }
    subst fs. now inversion Hp.
Qed.




(** X17. The two checkboxes change nothing but the overlay chart: for the
    same frame and range, two passes with different toggles write the same
    widgets below the sidebar, the chart apart, in the same order; metrics,
    histograms and table do not depend on the toggles, and neither does
    whether the pass completes or raises. *)
Theorem toggles_change_only_the_chart (df : DataFrame) (start_date end_date : date)
    (g1 l1 g2 l2 : bool) :
  filter (fun w => negb (is_chart w)) (page_of (views df start_date end_date g1 l1))
  = filter (fun w => negb (is_chart w)) (page_of (views df start_date end_date g2 l2)) /\
  ((exists p, views df start_date end_date g1 l1 = Done p tt) <->
   (exists p, views df start_date end_date g2 l2 = Done p tt)).
Proof.
  unfold views. rewrite filter_frame_eq. cbv beta iota delta [bind lift].
  unfold key_metrics, main_chart, overlay, error_distribution, data_table, footer,
    getitem.
  cbn [columns rows].
  destruct (index_of "Actual_Volatility" (columns df));
    destruct (index_of "GARCH_Volatility" (columns df));
    destruct (index_of "Predicted_Volatility" (columns df));
    destruct (empty _); destruct g1, l1, g2, l2;
    (split; [reflexivity|]);
    (split; intros [p H]; solve [discriminate H | eexists; reflexivity]).
Qed.
